(** * Verification of the product routes of the RESTful express server

    The development embeds [src/routes/products.js]: the validation
    middleware [validateProduct], the five route handlers registered on the
    router, and the fragment of JavaScript semantics they rely on (truthiness,
    numeric coercion, [String.prototype.trim], completion records, the
    response object, [await] on the data-access collaborator).

    The data-access collaborator ([../models/productModel]) is not part of the
    sources; it is an interface here ([ProductModel]) whose behaviour is
    arbitrary: every call may return any value or throw, and may change the
    store. *)

From Stdlib Require Import ZArith NArith SpecFloat DecimalString.
From stdpp Require Import base list strings gmap.

Set Warnings "-register-all".
Local Open Scope N_scope.

(** ** JavaScript values *)

(** A JavaScript string is a sequence of UTF-16 code units. *)
Definition JsString : Type := list N.

(** A JavaScript number is an IEEE 754 binary64 value. *)
Definition JsNumber : Type := spec_float.

(** The values a parsed request body or a stored record is made of. An
    object is the ordered list of its own properties. *)
Inductive JsValue : Type :=
| JsUndefined
| JsNull
| JsBool (b : bool)
| JsNum (x : JsNumber)
| JsStr (s : JsString)
| JsArray (elems : list JsValue)
| JsObject (props : list (JsString * JsValue)).

(** A string literal of the source, as code units. *)
Definition lit (s : string) : JsString :=
  map Ascii.N_of_ascii (String.list_ascii_of_string s).

Definition str (s : string) : JsValue := JsStr (lit s).

Definition JsString_eqb (a b : JsString) : bool := bool_decide (a = b).

(** Own property lookup. *)
Fixpoint getOwn (k : JsString) (props : list (JsString * JsValue)) : option JsValue :=
  match props with
  | [] => None
  | (k', v) :: rest => if JsString_eqb k k' then Some v else getOwn k rest
  end.

(** What is thrown: an [Error] object (its name and message) or any other
    value. *)
Inductive JsThrown : Type :=
| JsError (name message : string)
| JsThrowValue (v : JsValue).

Definition TypeError (message : string) : JsThrown := JsError "TypeError" message.

(** Completion records: an evaluation returns normally or throws. *)
Inductive Completion (A : Type) : Type :=
| Normal (a : A)
| Throw (e : JsThrown).
Arguments Normal {A} a.
Arguments Throw {A} e.

Definition bindC {A B} (c : Completion A) (k : A -> Completion B) : Completion B :=
  match c with
  | Normal a => k a
  | Throw e => Throw e
  end.

Declare Scope completion_scope.
Delimit Scope completion_scope with C.
Notation "x <- c ;; k" := (bindC c (fun x => k))
  (at level 100, c at next level, right associativity) : completion_scope.

(** ** Numbers *)

Module Num.

Definition prec : Z := 53.
Definition emax : Z := 1024.

Definition NaN : JsNumber := S754_nan.
Definition zero : JsNumber := S754_zero false.

(** The number nearest to an integer (ties to even). *)
Definition ofZ (z : Z) : JsNumber := binary_normalize prec emax z 0 false.

(** The number nearest to [m * 10^e] for a sign and a magnitude. *)
Definition ofDecimal (neg : bool) (m : N) (e : Z) : JsNumber :=
  match m with
  | N0 => S754_zero neg
  | Npos p =>
      match e with
      | Zneg k =>
          let '(q, e', l) :=
            SFdiv_core_binary prec emax (Zpos p) 0 (Z.pow 10 (Zpos k)) 0 in
          binary_round_aux prec emax neg q e' l
      | _ => binary_round prec emax neg (p * Z.to_pos (Z.pow 10 e)) 0
      end
  end.

Definition isNaN (x : JsNumber) : bool :=
  match x with S754_nan => true | _ => false end.

Definition isZero (x : JsNumber) : bool :=
  match x with S754_zero _ => true | _ => false end.

(** [x < y], with [None] when either is NaN. *)
Definition lessThan (x y : JsNumber) : option bool :=
  match SFcompare x y with
  | Some Lt => Some true
  | Some _ => Some false
  | None => None
  end.

(** [x <= y] is [!(y < x)], and false when the comparison is undefined. *)
Definition lessEq (x y : JsNumber) : bool :=
  match lessThan y x with
  | Some false => true
  | _ => false
  end.

(** Strictly positive: neither NaN, nor a zero, nor negative. *)
Definition positive (x : JsNumber) : bool :=
  match x with
  | S754_finite false _ _ | S754_infinity false => true
  | _ => false
  end.

End Num.

(** ** Strings *)

(** WhiteSpace and LineTerminator code points, the ones [trim] strips and
    the numeric coercion of a string skips. *)
Definition isWhiteSpace (c : N) : bool :=
  (c =? 9) || (c =? 10) || (c =? 11) || (c =? 12) || (c =? 13) || (c =? 32)
  || (c =? 160) || (c =? 5760) || ((8192 <=? c) && (c <=? 8202))
  || (c =? 8232) || (c =? 8233) || (c =? 8239) || (c =? 8287)
  || (c =? 12288) || (c =? 65279).

Fixpoint trimStart (s : JsString) : JsString :=
  match s with
  | [] => []
  | c :: rest => if isWhiteSpace c then trimStart rest else s
  end.

Definition trimEnd (s : JsString) : JsString := rev (trimStart (rev s)).

(** [String.prototype.trim]. *)
Definition trim (s : JsString) : JsString := trimEnd (trimStart s).

Definition isDecimalDigit (c : N) : bool := (48 <=? c) && (c <=? 57).

(** The value of a digit in a radix up to 16, when it is one. *)
Definition digitIn (radix : N) (c : N) : option N :=
  let v :=
    if isDecimalDigit c then Some (c - 48)
    else if (97 <=? c) && (c <=? 102) then Some (c - 87)
    else if (65 <=? c) && (c <=? 70) then Some (c - 55)
    else None in
  match v with
  | Some d => if d <? radix then Some d else None
  | None => None
  end.

(** The integer written by a whole string of digits of the radix. *)
Fixpoint digitsValue (radix : N) (acc : N) (s : JsString) : option N :=
  match s with
  | [] => Some acc
  | c :: rest =>
      match digitIn radix c with
      | Some d => digitsValue radix (radix * acc + d) rest
      | None => None
      end
  end.

(** The leading decimal digits of a string and what follows them. *)
Fixpoint spanDigits (s : JsString) : JsString * JsString :=
  match s with
  | c :: rest =>
      if isDecimalDigit c
      then let '(ds, r) := spanDigits rest in (c :: ds, r)
      else ([], s)
  | [] => ([], [])
  end.

Definition decimalValue (ds : JsString) : N :=
  fold_left (fun acc c => 10 * acc + (c - 48)) ds 0.

(** NonDecimalIntegerLiteral: 0x, 0o, 0b and at least one digit. *)
Definition parseNonDecimal (t : JsString) : option N :=
  match t with
  | 48 :: p :: d :: ds =>
      let radix :=
        if (p =? 120) || (p =? 88) then Some 16
        else if (p =? 111) || (p =? 79) then Some 8
        else if (p =? 98) || (p =? 66) then Some 2
        else None in
      match radix with
      | Some r => digitsValue r 0 (d :: ds)
      | None => None
      end
  | _ => None
  end.

(** StrUnsignedDecimalLiteral other than Infinity: the digits as an integer
    and the power of ten that scales them. *)
Definition parseUnsignedDecimal (t : JsString) : option (N * Z) :=
  let '(ip, r1) := spanDigits t in
  let '(fp, r2) :=
    match r1 with
    | 46 :: r => spanDigits r
    | _ => ([], r1)
    end in
  match ip ++ fp with
  | [] => None
  | ds =>
      let m := decimalValue ds in
      let scale := (- Z.of_nat (length fp))%Z in
      match r2 with
      | [] => Some (m, scale)
      | c :: r3 =>
          if (c =? 101) || (c =? 69) then
            let '(eneg, r4) :=
              match r3 with
              | 43 :: r => (false, r)
              | 45 :: r => (true, r)
              | _ => (false, r3)
              end in
            match spanDigits r4 with
            | (e :: es, []) =>
                let x := Z.of_N (decimalValue (e :: es)) in
                Some (m, ((if eneg then - x else x) + scale)%Z)
            | _ => None
            end
          else None
      end
  end.

(** StringToNumber: the numeric coercion of a string. *)
Definition StringToNumber (s : JsString) : JsNumber :=
  match trim s with
  | [] => Num.zero
  | t =>
      match parseNonDecimal t with
      | Some n => Num.ofZ (Z.of_N n)
      | None =>
          let '(neg, u) :=
            match t with
            | 43 :: r => (false, r)
            | 45 :: r => (true, r)
            | _ => (false, t)
            end in
          if JsString_eqb u (lit "Infinity") then S754_infinity neg
          else
            match parseUnsignedDecimal u with
            | Some (m, e) => Num.ofDecimal neg m e
            | None => Num.NaN
            end
      end
  end.

(** ** Coercions *)

(** ToBoolean: the falsy values are undefined, null, false, the zeros, NaN
    and the empty string. *)
Definition ToBoolean (v : JsValue) : bool :=
  match v with
  | JsUndefined | JsNull => false
  | JsBool b => b
  | JsNum x => negb (Num.isZero x || Num.isNaN x)
  | JsStr s => match s with [] => false | _ => true end
  | JsArray _ | JsObject _ => true
  end.

Definition cannotConvert : JsThrown :=
  TypeError "Cannot convert object to primitive value".

(** Whether the string conversion of a value completes. An object of parsed
    data converts through [Object.prototype.toString] unless an own
    property named toString, never callable in parsed data, hides it; an
    array converts each of its elements but undefined and null. *)
Fixpoint stringifies (v : JsValue) : bool :=
  match v with
  | JsObject props =>
      match getOwn (lit "toString") props with Some _ => false | None => true end
  | JsArray elems => forallb stringifies elems
  | _ => true
  end.

(** The number read back from the string conversion of a value that
    converts. For a number it is the number itself (the string conversion
    of a number reads back as that number), but for the negative zero,
    written 0; an array is written as its elements separated by commas,
    and no numeric literal holds a comma. *)
Fixpoint numberOfString (v : JsValue) : JsNumber :=
  match v with
  | JsUndefined | JsNull | JsBool _ | JsObject _ => Num.NaN
  | JsNum x => if Num.isZero x then Num.zero else x
  | JsStr s => StringToNumber s
  | JsArray elems =>
      match elems with
      | [] => Num.zero
      | [e] =>
          match e with
          | JsUndefined | JsNull => Num.zero
          | _ => numberOfString e
          end
      | _ :: _ :: _ => Num.NaN
      end
  end.

(** ToNumber. *)
Definition ToNumber (v : JsValue) : Completion JsNumber :=
  match v with
  | JsUndefined => Normal Num.NaN
  | JsNull => Normal Num.zero
  | JsBool b => Normal (if b then Num.ofZ 1 else Num.zero)
  | JsNum x => Normal x
  | JsStr s => Normal (StringToNumber s)
  | JsArray _ | JsObject _ =>
      if stringifies v then Normal (numberOfString v) else Throw cannotConvert
  end.

(** The global [isNaN]. *)
Definition isNaN (v : JsValue) : Completion bool :=
  (n <- ToNumber v ;; Normal (Num.isNaN n))%C.

(** [v <= y] for a number [y]. *)
Definition lessEq (v : JsValue) (y : JsNumber) : Completion bool :=
  (n <- ToNumber v ;; Normal (Num.lessEq n y))%C.

(** [v.trim()]: only a string finds [String.prototype.trim]; on any other
    value of parsed data the property is missing or not callable. *)
Definition callTrim (field : string) (v : JsValue) : Completion JsString :=
  match v with
  | JsStr s => Normal (trim s)
  | JsUndefined | JsNull =>
      Throw (TypeError ("Cannot read properties of " +:+ field))
  | _ => Throw (TypeError (field +:+ ".trim is not a function"))
  end.

(** [v[k]] for a key that no prototype defines (name, price, category):
    an object answers with its own property, every other value with
    undefined. *)
Definition getField (k : string) (v : JsValue) : JsValue :=
  match v with
  | JsObject props => default JsUndefined (getOwn (lit k) props)
  | _ => JsUndefined
  end.

(** ** The response object *)

(** What a response carries: [JsonBody v] is what [res.json(v)] writes,
    the JSON text of [v], which is no text at all when [v] is undefined;
    [NoBody] is what [res.end()] leaves. *)
Inductive Payload : Type :=
| JsonBody (v : JsValue)
| NoBody.

Record Response : Type := mkResponse { status : N; payload : Payload }.

(** [res]: the status code set so far and the responses sent on it. *)
Record Res : Type := mkRes { statusCode : N; sent : list Response }.

Definition freshRes : Res := {| statusCode := 200; sent := [] |}.

Definition headersSent : JsThrown :=
  JsError "Error" "Cannot set headers after they are sent to the client".

(** ** The data-access collaborator *)

(** The calls the routes make on [productModel]. *)
Inductive ModelCall : Type :=
| GetAllProducts
| GetProductById (id : JsString)
| CreateProduct (data : JsValue)
| UpdateProduct (id : JsString) (data : JsValue)
| DeleteProduct (id : JsString).

(** The collaborator over a store: each call returns or throws, and leaves
    a store. *)
Record ProductModel (Store : Type) : Type := {
  getAllProducts : Store -> Completion JsValue * Store;
  getProductById : JsString -> Store -> Completion JsValue * Store;
  createProduct : JsValue -> Store -> Completion JsValue * Store;
  updateProduct : JsString -> JsValue -> Store -> Completion JsValue * Store;
  deleteProduct : JsString -> Store -> Completion JsValue * Store
}.
Arguments getAllProducts {Store} _ _.
Arguments getProductById {Store} _ _ _.
Arguments createProduct {Store} _ _ _.
Arguments updateProduct {Store} _ _ _ _.
Arguments deleteProduct {Store} _ _ _.

Definition perform {Store} (m : ProductModel Store) (c : ModelCall)
  : Store -> Completion JsValue * Store :=
  match c with
  | GetAllProducts => getAllProducts m
  | GetProductById id => getProductById m id
  | CreateProduct data => createProduct m data
  | UpdateProduct id data => updateProduct m id data
  | DeleteProduct id => deleteProduct m id
  end.

(** ** Handlers *)

(** An asynchronous computation: it is done, or it awaits a call on the
    collaborator and goes on with the way the call completes. *)
Inductive Async (A : Type) : Type :=
| Done (a : A)
| Await (c : ModelCall) (k : Completion JsValue -> Async A).
Arguments Done {A} a.
Arguments Await {A} c k.

(** A handler works on the response object, may await the collaborator, and
    returns or throws. *)
Definition Handler (A : Type) : Type := Res -> Async (Completion A * Res).

Fixpoint bindA {A B} (p : Async A) (k : A -> Async B) : Async B :=
  match p with
  | Done a => k a
  | Await c f => Await c (fun r => bindA (f r) k)
  end.

Definition bindH {A B} (h : Handler A) (k : A -> Handler B) : Handler B :=
  fun r =>
    bindA (h r) (fun '(c, r') =>
      match c with
      | Normal a => k a r'
      | Throw e => Done (Throw e, r')
      end).

Declare Scope handler_scope.
Delimit Scope handler_scope with H.
Notation "x <- c ;; k" := (bindH c (fun x => k))
  (at level 100, c at next level, right associativity) : handler_scope.
Notation "c ;; k" := (bindH c (fun _ => k))
  (at level 100, right associativity) : handler_scope.

(** A synchronous evaluation inside a handler. *)
Definition eval {A} (c : Completion A) : Handler A := fun r => Done (c, r).

(** [await productModel.call(...)]. *)
Definition await (c : ModelCall) : Handler JsValue :=
  fun r => Await c (fun o => Done (o, r)).

(** [try { body } catch (err) { handler }]. *)
Definition tryCatch {A} (body : Handler A) (handler : JsThrown -> Handler A)
  : Handler A :=
  fun r =>
    bindA (body r) (fun '(c, r') =>
      match c with
      | Normal a => Done (Normal a, r')
      | Throw e => handler e r'
      end).

(** [res.status(code)]. *)
Definition res_status (code : N) : Handler unit :=
  fun r => Done (Normal tt, {| statusCode := code; sent := sent r |}).

(** Sending on [res]: once a response is out, setting its headers again
    throws. *)
Definition send (p : Payload) : Handler unit :=
  fun r =>
    match sent r with
    | [] => Done (Normal tt,
                  {| statusCode := statusCode r;
                     sent := [mkResponse (statusCode r) p] |})
    | _ :: _ => Done (Throw headersSent, r)
    end.

(** [res.json(body)] on a value of plain data. The conversion to JSON
    throws on a BigInt and on an object that refers to itself; the values of
    [JsValue] hold neither, so here it always writes. *)
Definition res_json (v : JsValue) : Handler unit := send (JsonBody v).

(** [res.end()]: ends the response with no body; on a response already
    ended it writes nothing. *)
Definition res_end : Handler unit :=
  fun r =>
    match sent r with
    | [] => send NoBody r
    | _ :: _ => Done (Normal tt, r)
    end.

(** Running an asynchronous computation against the collaborator, from a
    store: its result, the store it leaves, and the calls made with the way
    each completed, in order. *)
Fixpoint run {Store A} (m : ProductModel Store) (p : Async A) (st : Store)
  : A * Store * list (ModelCall * Completion JsValue) :=
  match p with
  | Done a => (a, st, [])
  | Await c k =>
      let '(o, st1) := perform m c st in
      let '(a, st2, calls) := run m (k o) st1 in
      (a, st2, (c, o) :: calls)
  end.

(** ** The routes of [src/routes/products.js] *)

Record Request : Type := mkRequest { params_id : JsString; body : JsValue }.

(** [{ error: message }]. *)
Definition errorBody (message : string) : JsValue :=
  JsObject [(lit "error", str message)].

(** [{ errors }]. *)
Definition errorsBody (errors : list JsString) : JsValue :=
  JsObject [(lit "errors", JsArray (map JsStr errors))].

(** [const { name, price, category } = req.body]. *)
Definition destructure (b : JsValue) : Completion (JsValue * JsValue * JsValue) :=
  match b with
  | JsUndefined | JsNull =>
      Throw (TypeError "Cannot destructure property 'name' of 'req.body'")
  | _ => Normal (getField "name" b, getField "price" b, getField "category" b)
  end.

(** [errors.push(message)]. *)
Definition push (errors : list JsString) (message : string) : list JsString :=
  errors ++ [lit message].

(** [!v || v.trim() === ''] *)
Definition blank (field : string) (v : JsValue) : Completion bool :=
  if negb (ToBoolean v) then Normal true
  else (t <- callTrim field v ;; Normal (JsString_eqb t (lit "")))%C.

(** [!price || isNaN(price) || price <= 0] *)
Definition notPositive (price : JsValue) : Completion bool :=
  if negb (ToBoolean price) then Normal true
  else (nan <- isNaN price ;;
        if (nan : bool) then Normal true else lessEq price Num.zero)%C.

(** The first part of [validateProduct]: the [errors] array once the three
    checks have run. *)
Definition collectErrors (b : JsValue) : Completion (list JsString) :=
  (fields <- destructure b ;;
   let '(name, price, category) := fields in
   let errors := [] in
   c1 <- blank "name" name ;;
   let errors := if (c1 : bool) then push errors "Product name is required" else errors in
   c2 <- notPositive price ;;
   let errors :=
     if (c2 : bool) then push errors "Product price must be a positive number"
     else errors in
   c3 <- blank "category" category ;;
   let errors :=
     if (c3 : bool) then push errors "Product category is required" else errors in
   Normal errors)%C.

(** The middleware: with errors it answers 400 and the chain stops, without
    it calls [next]. *)
Definition validateProduct (req : Request) (next : Handler unit) : Handler unit :=
  (errors <- eval (collectErrors (body req)) ;;
   if (0 <? length errors)%nat
   then (res_status 400 ;; res_json (errorsBody errors))
   else next)%H.

(** [router.get('/')] *)
Definition getAll (req : Request) : Handler unit :=
  tryCatch
    (products <- await GetAllProducts ;;
     res_json products)%H
    (fun err =>
       res_status 500 ;; res_json (errorBody "Failed to retrieve products"))%H.

(** [router.get('/:id')] *)
Definition getOne (req : Request) : Handler unit :=
  tryCatch
    (product <- await (GetProductById (params_id req)) ;;
     if negb (ToBoolean product)
     then (res_status 404 ;; res_json (errorBody "Product not found"))
     else res_json product)%H
    (fun err =>
       res_status 500 ;; res_json (errorBody "Failed to retrieve product"))%H.

(** The handler of [router.post('/')], after the middleware. *)
Definition create (req : Request) : Handler unit :=
  tryCatch
    (newProduct <- await (CreateProduct (body req)) ;;
     res_status 201 ;; res_json newProduct)%H
    (fun err =>
       res_status 500 ;; res_json (errorBody "Failed to create product"))%H.

(** The handler of [router.put('/:id')], after the middleware. *)
Definition update (req : Request) : Handler unit :=
  tryCatch
    (updatedProduct <- await (UpdateProduct (params_id req) (body req)) ;;
     if negb (ToBoolean updatedProduct)
     then (res_status 404 ;; res_json (errorBody "Product not found"))
     else res_json updatedProduct)%H
    (fun err =>
       res_status 500 ;; res_json (errorBody "Failed to update product"))%H.

(** [router.delete('/:id')] *)
Definition remove (req : Request) : Handler unit :=
  tryCatch
    (success <- await (DeleteProduct (params_id req)) ;;
     if negb (ToBoolean success)
     then (res_status 404 ;; res_json (errorBody "Product not found"))
     else (res_status 204 ;; res_end))%H
    (fun err =>
       res_status 500 ;; res_json (errorBody "Failed to delete product"))%H.

(** The five operations of the router. *)
Inductive Route : Type := GET_all | GET_one | POST | PUT | DELETE.

Definition router (op : Route) (req : Request) : Handler unit :=
  match op with
  | GET_all => getAll req
  | GET_one => getOne req
  | POST => validateProduct req (create req)
  | PUT => validateProduct req (update req)
  | DELETE => remove req
  end.

(** What a request comes to: how the chain of handlers completed, the
    response object, the store, and the calls made on the collaborator. *)
Record Outcome (Store : Type) : Type := mkOutcome {
  completion : Completion unit;
  res : Res;
  store : Store;
  calls : list (ModelCall * Completion JsValue)
}.
Arguments mkOutcome {Store} _ _ _ _.
Arguments completion {Store} _.
Arguments res {Store} _.
Arguments store {Store} _.
Arguments calls {Store} _.

Definition serve {Store} (m : ProductModel Store) (op : Route) (req : Request)
  (st : Store) : Outcome Store :=
  let '(c, r, st', log) := run m (router op req freshRes) st in
  mkOutcome c r st' log.

(** ** Two collaborators to run the routes against *)

Module Memory.

(** Modelled from the spec: the data-access collaborator
    ([../models/productModel]) is missing from the sources. This one keeps
    the records in a map from identifier to record and follows the
    contract of the external interfaces: a list of all records, a record
    or absent (null), the created record with the identifier the store
    assigns, the updated record or absent, and a boolean success. *)
Record Store : Type := mkStore { nextId : N; products : gmap (list N) JsValue }.

Definition empty : Store := {| nextId := 1; products := ∅ |}.

Definition present (st : Store) (id : JsString) : bool :=
  bool_decide (is_Some (products st !! id)).

Definition record (id : JsString) (data : JsValue) : JsValue :=
  JsObject [(lit "id", JsStr id);
            (lit "name", getField "name" data);
            (lit "price", getField "price" data);
            (lit "category", getField "category" data)].

Definition freshId (st : Store) : JsString :=
  lit (DecimalString.NilEmpty.string_of_uint (N.to_uint (nextId st))).

(** Modelled from the spec: the five calls of the missing collaborator, as
    the external interfaces describe them: getAllProducts gives the list,
    getProductById a product or absent, createProduct the created product,
    updateProduct the updated product or absent, deleteProduct a boolean
    success. *)
Definition model : ProductModel Store := {|
  getAllProducts st :=
    (Normal (JsArray (snd <$> map_to_list (products st))), st);
  getProductById id st :=
    (Normal (default JsNull (products st !! id)), st);
  createProduct data st :=
    let id := freshId st in
    (Normal (record id data),
     {| nextId := nextId st + 1;
        products := <[id := record id data]> (products st) |});
  updateProduct id data st :=
    if present st id
    then (Normal (record id data),
          {| nextId := nextId st;
             products := <[id := record id data]> (products st) |})
    else (Normal JsNull, st);
  deleteProduct id st :=
    if present st id
    then (Normal (JsBool true),
          {| nextId := nextId st; products := delete id (products st) |})
    else (Normal (JsBool false), st)
|}.

End Memory.

(** A collaborator that is out of reach: every call throws. *)
Definition unreachable : ProductModel unit :=
  let failed := Throw (JsError "Error" "connect ECONNREFUSED") in
  {| getAllProducts st := (failed, st);
     getProductById _ st := (failed, st);
     createProduct _ st := (failed, st);
     updateProduct _ _ st := (failed, st);
     deleteProduct _ st := (failed, st) |}.

(** ** The rules of validation, stated apart from the code *)

Definition nameRequired : JsString := lit "Product name is required".
Definition pricePositive : JsString := lit "Product price must be a positive number".
Definition categoryRequired : JsString := lit "Product category is required".

Definition listing (name price category : bool) : list JsString :=
  (if name then [nameRequired] else [])
  ++ (if price then [pricePositive] else [])
  ++ (if category then [categoryRequired] else []).

Module Spec.

(** "the name is missing or empty" *)
Definition missingOrEmpty (v : JsValue) : bool :=
  match v with
  | JsUndefined | JsNull | JsStr [] => true
  | _ => false
  end.

(** "a positive number" *)
Definition positiveNumber (v : JsValue) : bool :=
  match v with
  | JsNum x => Num.positive x
  | _ => false
  end.

(** "a non-empty name", "a non-empty category" *)
Definition nonEmpty (v : JsValue) : bool :=
  match v with
  | JsStr (_ :: _) => true
  | _ => false
  end.

(** One message for each of the violated rules. *)
Definition violations (b : JsValue) : list JsString :=
  listing (missingOrEmpty (getField "name" b))
          (negb (positiveNumber (getField "price" b)))
          (missingOrEmpty (getField "category" b)).

End Spec.

(** The rules as the middleware applies them. *)
Module Rules.

(** A string made of white space only (the empty string is one). *)
Definition whiteSpaceOnly (s : JsString) : bool := forallb isWhiteSpace s.

(** Missing (or any other falsy value), or a string of white space only. *)
Definition blankField (v : JsValue) : bool :=
  negb (ToBoolean v)
  || match v with JsStr s => whiteSpaceOnly s | _ => false end.

(** Missing (or any other falsy value), or a value whose numeric coercion
    is not a number greater than zero. *)
Definition badPrice (v : JsValue) : bool :=
  negb (ToBoolean v)
  || match ToNumber v with
     | Normal n => negb (Num.positive n)
     | Throw _ => false
     end.

Definition violations (b : JsValue) : list JsString :=
  listing (blankField (getField "name" b))
          (badPrice (getField "price" b))
          (blankField (getField "category" b)).

(** The bodies on which none of the three checks throws: the body is
    there, name and category are strings or falsy, and the price converts
    to a number. *)
Definition textual (v : JsValue) : bool :=
  match v with
  | JsStr _ => true
  | _ => negb (ToBoolean v)
  end.

Definition checkable (b : JsValue) : bool :=
  match b with
  | JsUndefined | JsNull => false
  | _ => textual (getField "name" b)
         && stringifies (getField "price" b)
         && textual (getField "category" b)
  end.

End Rules.

(** The generic message of each operation. *)
Definition failureMessage (op : Route) : string :=
  match op with
  | GET_all => "Failed to retrieve products"
  | GET_one => "Failed to retrieve product"
  | POST => "Failed to create product"
  | PUT => "Failed to update product"
  | DELETE => "Failed to delete product"
  end.

Definition notFound : Response :=
  mkResponse 404 (JsonBody (errorBody "Product not found")).

Definition failure (op : Route) : Response :=
  mkResponse 500 (JsonBody (errorBody (failureMessage op))).

Definition invalid (errors : list JsString) : Response :=
  mkResponse 400 (JsonBody (errorsBody errors)).

(** The call an operation makes on the collaborator. *)
Definition callOf (op : Route) (req : Request) : ModelCall :=
  match op with
  | GET_all => GetAllProducts
  | GET_one => GetProductById (params_id req)
  | POST => CreateProduct (body req)
  | PUT => UpdateProduct (params_id req) (body req)
  | DELETE => DeleteProduct (params_id req)
  end.

(** The operations the middleware guards. *)
Definition validated (op : Route) : bool :=
  match op with
  | POST | PUT => true
  | _ => false
  end.

(** The response object after one answer with a status and a payload. *)
Definition answered (code : N) (p : Payload) : Res :=
  {| statusCode := code; sent := [mkResponse code p] |}.

(** The handler an operation ends in. *)
Definition handlerOf (op : Route) : Request -> Handler unit :=
  match op with
  | GET_all => getAll
  | GET_one => getOne
  | POST => create
  | PUT => update
  | DELETE => remove
  end.

(** Sample requests. *)
Definition product (name price category : JsValue) : JsValue :=
  JsObject [(lit "name", name); (lit "price", price); (lit "category", category)].

Definition widget : JsValue := product (str "Widget") (JsNum (Num.ofZ 10)) (str "Tools").

(** ** Summaries of the routes *)

(** The values that cannot be destructured. *)
Definition nullish (v : JsValue) : bool :=
  match v with
  | JsUndefined | JsNull => true
  | _ => false
  end.

(** The three messages, in the order of the checks. *)
Definition threeMessages : list JsString :=
  [nameRequired; pricePositive; categoryRequired].

(** The status codes each route writes. *)
Definition statusesOf (op : Route) : list N :=
  match op with
  | GET_all => [200; 500]
  | GET_one => [200; 404; 500]
  | POST => [201; 400; 500]
  | PUT => [200; 400; 404; 500]
  | DELETE => [204; 404; 500]
  end.

(** The routes that look at what the collaborator returned before they
    answer. *)
Definition checksResult (op : Route) : bool :=
  match op with
  | GET_one | PUT | DELETE => true
  | GET_all | POST => false
  end.

(** ** The coercions on sample values *)

Example trim_strips_both_ends :
  trim (lit "  a b  ") = lit "a b" /\ trim [160; 9; 10; 8232] = [].
Proof. split; reflexivity. Qed.

Example numeric_strings :
  StringToNumber (lit "10") = Num.ofZ 10
  /\ StringToNumber (lit " 1e1 ") = Num.ofZ 10
  /\ StringToNumber (lit "0x0a") = Num.ofZ 10
  /\ StringToNumber (lit "100e-1") = Num.ofZ 10
  /\ StringToNumber (lit "") = Num.zero
  /\ StringToNumber (lit "-0") = S754_zero true
  /\ StringToNumber (lit "0.1") = S754_finite false 7205759403792794 (-56)
  /\ StringToNumber (lit "9007199254740993") = Num.ofZ 9007199254740992
  /\ StringToNumber (lit "1e400") = S754_infinity false
  /\ StringToNumber (lit "1e-400") = Num.zero
  /\ StringToNumber (lit "-Infinity") = S754_infinity true.
Proof. vm_compute. repeat split. Qed.

Example not_numeric_strings :
  Forall (fun s => StringToNumber (lit s) = Num.NaN)
    ["ten"; "1,5"; "."; "1e"; "-0x10"; "0x"; "1 0"; "Infinit"; "+-1"; "1_000"].
Proof. repeat constructor. Qed.

Example numbers_of_arrays_and_objects :
  ToNumber (JsArray []) = Normal Num.zero
  /\ ToNumber (JsArray [JsArray [str "10"]]) = Normal (Num.ofZ 10)
  /\ ToNumber (JsArray [JsNum (Num.ofZ 1); JsNum (Num.ofZ 2)]) = Normal Num.NaN
  /\ ToNumber (JsObject []) = Normal Num.NaN
  /\ ToNumber (JsObject [(lit "toString", JsNull)]) = Throw cannotConvert.
Proof. vm_compute. repeat split. Qed.

Example price_checks :
  notPositive (JsNum (Num.ofZ 10)) = Normal false
  /\ notPositive (JsNum Num.zero) = Normal true
  /\ notPositive (JsNum (Num.ofZ (-1))) = Normal true
  /\ notPositive JsUndefined = Normal true
  /\ notPositive (str "abc") = Normal true
  /\ notPositive (str "0") = Normal true
  /\ notPositive (JsBool true) = Normal false
  /\ notPositive (JsArray [str "2.5"]) = Normal false.
Proof. vm_compute. repeat split. Qed.

(** ** Evaluation lemmas *)

Lemma trimStart_nil (s : JsString) :
  trimStart s = [] <-> Rules.whiteSpaceOnly s = true.
Proof.
  induction s as [|c s IH]; simpl; [tauto|].
  destruct (isWhiteSpace c); simpl; [exact IH|].
  split; discriminate.
Qed.

Lemma trimStart_head (s : JsString) c r :
  trimStart s = c :: r -> isWhiteSpace c = false.
Proof.
  induction s as [|d s IH]; simpl; [discriminate|].
  destruct (isWhiteSpace d) eqn:E; [exact IH|].
  intros [= -> _]. exact E.
Qed.

Lemma whiteSpaceOnly_rev (s : JsString) :
  Rules.whiteSpaceOnly (rev s) = Rules.whiteSpaceOnly s.
Proof.
  unfold Rules.whiteSpaceOnly.
  induction s as [|c s IH]; simpl; [reflexivity|].
  rewrite forallb_app, IH. simpl. rewrite andb_true_r. apply andb_comm.
Qed.

(** [trim] leaves nothing exactly of the strings of white space only. *)
Lemma trim_nil (s : JsString) :
  trim s = [] <-> Rules.whiteSpaceOnly s = true.
Proof.
  unfold trim, trimEnd. split.
  - intros H. apply (f_equal (@rev N)) in H. rewrite rev_involutive in H.
    simpl in H. apply trimStart_nil in H. rewrite whiteSpaceOnly_rev in H.
    destruct (trimStart s) as [|c r] eqn:E; [now apply trimStart_nil|].
    apply trimStart_head in E. simpl in H. rewrite E in H. discriminate.
  - intros H. apply trimStart_nil in H. rewrite H. reflexivity.
Qed.

(** The test on one of the two text fields. *)
Lemma blank_textual (field : string) (v : JsValue) :
  Rules.textual v = true -> blank field v = Normal (Rules.blankField v).
Proof.
  unfold blank, Rules.blankField, Rules.textual.
  destruct v as [| |b|x|s|l|l]; try reflexivity; try discriminate.
  - destruct b; [discriminate|reflexivity].
  - destruct (ToBoolean (JsNum x)); [discriminate|reflexivity].
  - intros _. destruct s as [|c s]; [reflexivity|].
    cbn [ToBoolean negb callTrim bindC orb]. f_equal.
    destruct (Rules.whiteSpaceOnly (c :: s)) eqn:E.
    + apply trim_nil in E. rewrite E. reflexivity.
    + destruct (trim (c :: s)) eqn:T; [|reflexivity].
      apply trim_nil in T. congruence.
Qed.

(** After the test for NaN, [n <= 0] says that [n] is not positive. *)
Lemma sign_test (n : JsNumber) :
  (if Num.isNaN n then true else Num.lessEq n Num.zero) = negb (Num.positive n).
Proof. destruct n as [[]|[]| |[] ? ?]; reflexivity. Qed.

(** The test on the price. *)
Lemma notPositive_coerced (price : JsValue) :
  stringifies price = true -> notPositive price = Normal (Rules.badPrice price).
Proof.
  intros H. unfold notPositive, Rules.badPrice, isNaN, lessEq.
  destruct (ToBoolean price); [|reflexivity]. simpl negb. cbv iota.
  assert (exists n, ToNumber price = Normal n) as [n Hn].
  { destruct price; simpl; eauto; simpl in H; rewrite H; eauto. }
  rewrite Hn. simpl. rewrite <- sign_test.
  destruct (Num.isNaN n); reflexivity.
Qed.

(** On a body whose checks do not throw, the middleware collects the
    messages of the violated rules, in the order name, price, category. *)
Lemma collectErrors_checkable (b : JsValue) :
  Rules.checkable b = true -> collectErrors b = Normal (Rules.violations b).
Proof.
  intros H. unfold collectErrors, Rules.violations.
  assert (destructure b
          = Normal (getField "name" b, getField "price" b, getField "category" b)) as ->
    by (destruct b; try reflexivity; discriminate).
  assert (Rules.textual (getField "name" b) = true
          /\ stringifies (getField "price" b) = true
          /\ Rules.textual (getField "category" b) = true) as (Hn & Hp & Hc).
  { destruct b; try discriminate; unfold Rules.checkable in H;
      apply andb_prop in H as [H ?]; apply andb_prop in H as [? ?]; auto. }
  simpl bindC.
  rewrite (blank_textual _ _ Hn), (notPositive_coerced _ Hp), (blank_textual _ _ Hc).
  simpl. unfold listing, push.
  destruct (Rules.blankField (getField "name" b)), (Rules.badPrice (getField "price" b)),
    (Rules.blankField (getField "category" b)); reflexivity.
Qed.

(** The middleware by the way the checks complete. *)
Lemma validateProduct_cases (req : Request) (next : Handler unit) (r : Res) :
  validateProduct req next r =
  match collectErrors (body req) with
  | Normal [] => next r
  | Normal (e :: es) => (res_status 400 ;; res_json (errorsBody (e :: es)))%H r
  | Throw e => Done (Throw e, r)
  end.
Proof.
  unfold validateProduct, bindH, eval. simpl.
  destruct (collectErrors (body req)) as [[|e es]|e]; reflexivity.
Qed.

(** What a handler answers once its call on the collaborator completed. *)
Lemma serve_reached {Store} (m : ProductModel Store) op req st :
  (validated op = true -> collectErrors (body req) = Normal []) ->
  serve m op req st =
  let '(o, st') := perform m (callOf op req) st in
  mkOutcome (Normal tt)
    match o with
    | Throw _ => answered 500 (JsonBody (errorBody (failureMessage op)))
    | Normal v =>
        match op with
        | GET_all => answered 200 (JsonBody v)
        | POST => answered 201 (JsonBody v)
        | GET_one | PUT =>
            if ToBoolean v then answered 200 (JsonBody v)
            else answered 404 (JsonBody (errorBody "Product not found"))
        | DELETE =>
            if ToBoolean v then answered 204 NoBody
            else answered 404 (JsonBody (errorBody "Product not found"))
        end
    end
    st' [(callOf op req, o)].
Proof.
  intros Hv. unfold serve, router.
  destruct op; simpl in Hv;
    try (rewrite validateProduct_cases, Hv by reflexivity);
    simpl; match goal with |- context [?f m ?a st] => destruct (f m a st) as [[v|e] st']
                      | |- context [?f m ?a ?b st] => destruct (f m a b st) as [[v|e] st']
                      | |- context [?f m st] => destruct (f m st) as [[v|e] st'] end;
    simpl; try reflexivity; destruct (ToBoolean v); reflexivity.
Qed.

(** With errors the middleware answers 400 and nothing else happens. *)
Lemma serve_rejected {Store} (m : ProductModel Store) op req st e es :
  validated op = true ->
  collectErrors (body req) = Normal (e :: es) ->
  serve m op req st
  = mkOutcome (Normal tt) (answered 400 (JsonBody (errorsBody (e :: es)))) st [].
Proof.
  intros Hop H. unfold serve, router.
  destruct op; try discriminate; rewrite validateProduct_cases, H; reflexivity.
Qed.

(** A check that throws ends the chain with nothing sent. *)
Lemma serve_thrown {Store} (m : ProductModel Store) op req st e :
  validated op = true ->
  collectErrors (body req) = Throw e ->
  serve m op req st = mkOutcome (Throw e) freshRes st [].
Proof.
  intros Hop H. unfold serve, router.
  destruct op; try discriminate; rewrite validateProduct_cases, H; reflexivity.
Qed.

(** ** The claims *)

(** C1. On each of the five operations, when the call the handler makes
    on the data-access collaborator throws, whatever is thrown and whatever
    store the call leaves: the call is made once and not repeated, the
    handler completes normally, and the response is the one answer of
    status 500 with the fixed generic body of the operation. On POST and
    PUT the handler, and so the call, is reached when validation passes. *)
Theorem collaborator_throw_is_500
    {Store} (m : ProductModel Store) (req : Request) (st st' : Store) (e : JsThrown) :
  (getAllProducts m st = (Throw e, st') ->
   serve m GET_all req st
   = mkOutcome (Normal tt)
       (answered 500 (JsonBody (JsObject
          [(lit "error", str "Failed to retrieve products")])))
       st' [(GetAllProducts, Throw e)])
  /\ (getProductById m (params_id req) st = (Throw e, st') ->
      serve m GET_one req st
      = mkOutcome (Normal tt)
          (answered 500 (JsonBody (JsObject
             [(lit "error", str "Failed to retrieve product")])))
          st' [(GetProductById (params_id req), Throw e)])
  /\ (collectErrors (body req) = Normal [] ->
      createProduct m (body req) st = (Throw e, st') ->
      serve m POST req st
      = mkOutcome (Normal tt)
          (answered 500 (JsonBody (JsObject
             [(lit "error", str "Failed to create product")])))
          st' [(CreateProduct (body req), Throw e)])
  /\ (collectErrors (body req) = Normal [] ->
      updateProduct m (params_id req) (body req) st = (Throw e, st') ->
      serve m PUT req st
      = mkOutcome (Normal tt)
          (answered 500 (JsonBody (JsObject
             [(lit "error", str "Failed to update product")])))
          st' [(UpdateProduct (params_id req) (body req), Throw e)])
  /\ (deleteProduct m (params_id req) st = (Throw e, st') ->
      serve m DELETE req st
      = mkOutcome (Normal tt)
          (answered 500 (JsonBody (JsObject
             [(lit "error", str "Failed to delete product")])))
          st' [(DeleteProduct (params_id req), Throw e)]).
Proof.
  repeat split; intros; rewrite serve_reached by (try discriminate; intros _; assumption);
    simpl;
    match goal with H : _ = (Throw e, st') |- _ => rewrite H end; reflexivity.
Qed.

Lemma collaborator_throw_is_500_witness :
  serve unreachable POST (mkRequest [] widget) tt
  = mkOutcome (Normal tt)
      (answered 500 (JsonBody (JsObject
         [(lit "error", str "Failed to create product")])))
      tt [(CreateProduct widget, Throw (JsError "Error" "connect ECONNREFUSED"))].
Proof.
  exact (proj1 (proj2 (proj2
           (collaborator_throw_is_500 unreachable (mkRequest [] widget) tt tt
              (JsError "Error" "connect ECONNREFUSED"))))
           eq_refl eq_refl).
Defined.

(** C2, as stated, fails: a price that is the string "10" is not a positive
    number, so the claim lists the price rule as violated and promises 400;
    the middleware passes the body and POST answers 201. *)
Lemma numeric_string_price_is_accepted :
  let b := product (str "Widget") (str "10") (str "Tools") in
  Spec.violations b = [pricePositive]
  /\ collectErrors b = Normal []
  /\ map status (sent (res (serve Memory.model POST (mkRequest [] b) Memory.empty)))
     = [201].
Proof. vm_compute. repeat split. Qed.

(** C2, amended. On POST and PUT, for every body on which the checks do not
    throw (the body is there, name and category are strings or falsy, the
    price converts to a number): when a rule is violated the chain ends in
    the one answer 400 whose body lists, in the order name, price, category,
    one message for each violated rule, without reaching the handler; when
    none is, the chain is the route handler. The name and category rules are
    violated by a falsy value and by a string of white space only; the price
    rule by a falsy value and by a value whose numeric coercion is not a
    number greater than zero. Nothing else of the body is looked at. *)
Theorem validation_lists_violations (op : Route) (req : Request) :
  validated op = true ->
  Rules.checkable (body req) = true ->
  router op req freshRes =
  match Rules.violations (body req) with
  | [] => handlerOf op req freshRes
  | errors => Done (Normal tt, answered 400 (JsonBody (errorsBody errors)))
  end.
Proof.
  intros Hop Hb.
  assert (router op req = validateProduct req (handlerOf op req)) as ->
    by (destruct op; try discriminate; reflexivity).
  rewrite validateProduct_cases, (collectErrors_checkable _ Hb).
  destruct (Rules.violations (body req)); reflexivity.
Qed.

Lemma validation_lists_violations_witness :
  let req := mkRequest (lit "7") (product (str "  ") (JsNum Num.zero) JsNull) in
  router PUT req freshRes
  = Done (Normal tt,
          answered 400 (JsonBody (errorsBody
            [nameRequired; pricePositive; categoryRequired]))).
Proof.
  exact (validation_lists_violations PUT
           (mkRequest (lit "7") (product (str "  ") (JsNum Num.zero) JsNull))
           eq_refl eq_refl).
Defined.

(** C3, as stated, fails: a name that is one space is a non-empty string,
    the price is a positive number, the category is non-empty, and
    createProduct would return; the answer is 400, not 201. *)
Lemma blank_name_is_not_created :
  let b := product (str " ") (JsNum (Num.ofZ 10)) (str "Tools") in
  Spec.nonEmpty (getField "name" b) = true
  /\ Spec.positiveNumber (getField "price" b) = true
  /\ Spec.nonEmpty (getField "category" b) = true
  /\ (exists v st', createProduct Memory.model b Memory.empty = (Normal v, st'))
  /\ sent (res (serve Memory.model POST (mkRequest [] b) Memory.empty))
     = [invalid [nameRequired]].
Proof.
  cbv zeta. split; [reflexivity|]. split; [reflexivity|]. split; [reflexivity|].
  split; [eexists _, _; reflexivity|]. vm_compute. reflexivity.
Qed.

(** C3, amended. For every request to POST /products whose name and
    category are strings that hold a character other than white space and
    whose price is a number greater than zero, and for which createProduct
    returns normally: createProduct is called once with the body, the one
    answer has status 201 and its body is the record createProduct
    returned. *)
Theorem create_valid_is_201 {Store} (m : ProductModel Store) req st
    name price category v st' :
  getField "name" (body req) = JsStr name ->
  Rules.whiteSpaceOnly name = false ->
  getField "price" (body req) = JsNum price ->
  Num.positive price = true ->
  getField "category" (body req) = JsStr category ->
  Rules.whiteSpaceOnly category = false ->
  createProduct m (body req) st = (Normal v, st') ->
  serve m POST req st
  = mkOutcome (Normal tt) (answered 201 (JsonBody v)) st'
      [(CreateProduct (body req), Normal v)].
Proof.
  intros Hn Wn Hp Pp Hc Wc Hcall.
  assert (Hb : Rules.checkable (body req) = true).
  { destruct (body req); try discriminate Hn.
    unfold Rules.checkable. rewrite Hn, Hp, Hc. reflexivity. }
  assert (Hv : Rules.violations (body req) = []).
  { unfold Rules.violations. rewrite Hn, Hp, Hc.
    unfold Rules.blankField, Rules.badPrice. rewrite Wn, Wc.
    destruct name; [discriminate|]. destruct category; [discriminate|].
    simpl. rewrite Pp. destruct price as [| | |[] ? ?]; try discriminate; reflexivity. }
  rewrite serve_reached by (intros _; rewrite (collectErrors_checkable _ Hb), Hv; reflexivity).
  simpl. rewrite Hcall. reflexivity.
Qed.

Lemma create_valid_is_201_witness :
  serve Memory.model POST (mkRequest [] widget) Memory.empty
  = mkOutcome (Normal tt)
      (answered 201 (JsonBody (Memory.record (lit "1") widget)))
      (Memory.mkStore 2 (<[lit "1" := Memory.record (lit "1") widget]> ∅))
      [(CreateProduct widget, Normal (Memory.record (lit "1") widget))].
Proof.
  exact (create_valid_is_201 Memory.model (mkRequest [] widget) Memory.empty
           (lit "Widget") (Num.ofZ 10) (lit "Tools") _ _
           eq_refl eq_refl eq_refl eq_refl eq_refl eq_refl eq_refl).
Defined.

(** C4. For every id, when getProductById returns: GET /products/:id
    answers 404 with the not-found body if what it returned is falsy (the
    product is absent: null or undefined), and otherwise answers with what
    it returned as the body, under the default status 200. *)
Theorem get_one_found_or_404 {Store} (m : ProductModel Store) req st v st' :
  getProductById m (params_id req) st = (Normal v, st') ->
  completion (serve m GET_one req st) = Normal tt
  /\ (ToBoolean v = false -> sent (res (serve m GET_one req st)) = [notFound])
  /\ (ToBoolean v = true ->
      sent (res (serve m GET_one req st)) = [mkResponse 200 (JsonBody v)]).
Proof.
  intros H. rewrite serve_reached by discriminate. simpl. rewrite H.
  split; [reflexivity|]. split; intros ->; reflexivity.
Qed.

Lemma get_one_found_or_404_witness :
  sent (res (serve Memory.model GET_one (mkRequest (lit "1") JsUndefined) Memory.empty))
  = [notFound]
  /\ sent (res (serve Memory.model GET_one (mkRequest (lit "1") JsUndefined)
                  (Memory.mkStore 2 (<[lit "1" := widget]> ∅))))
     = [mkResponse 200 (JsonBody widget)].
Proof.
  split.
  - exact (proj1 (proj2 (get_one_found_or_404 Memory.model
                           (mkRequest (lit "1") JsUndefined) Memory.empty
                           JsNull Memory.empty eq_refl)) eq_refl).
  - exact (proj2 (proj2 (get_one_found_or_404 Memory.model
                           (mkRequest (lit "1") JsUndefined)
                           (Memory.mkStore 2 (<[lit "1" := widget]> ∅))
                           widget _ eq_refl)) eq_refl).
Defined.

Section DeleteContract.

Context {Store : Type} (m : ProductModel Store).

(** Which identifiers the store holds. *)
Variable present : Store -> JsString -> bool.

(** The contract of deleteProduct: on an identifier that is present it
    returns true and removes the record; on one that is absent it returns
    false. *)
Hypothesis delete_present : forall st id,
  present st id = true ->
  exists st', deleteProduct m id st = (Normal (JsBool true), st')
              /\ present st' id = false.
Hypothesis delete_absent : forall st id,
  present st id = false ->
  exists st', deleteProduct m id st = (Normal (JsBool false), st').

(** C5. Under the contract of deleteProduct: for an id present in the
    store, a first DELETE answers 204 with no body and a second one, on
    the store the first left, answers 404; and on every store DELETE
    answers 204 exactly when deleteProduct returns true and 404 exactly
    when it returns false. *)
Theorem delete_twice_204_then_404 (req : Request) (st : Store) :
  (present st (params_id req) = true ->
   sent (res (serve m DELETE req st)) = [mkResponse 204 NoBody]
   /\ sent (res (serve m DELETE req (store (serve m DELETE req st))))
      = [notFound])
  /\ (sent (res (serve m DELETE req st)) = [mkResponse 204 NoBody]
      <-> fst (deleteProduct m (params_id req) st) = Normal (JsBool true))
  /\ (sent (res (serve m DELETE req st)) = [notFound]
      <-> fst (deleteProduct m (params_id req) st) = Normal (JsBool false)).
Proof.
  assert (once : forall s,
    if present s (params_id req)
    then exists s', deleteProduct m (params_id req) s = (Normal (JsBool true), s')
                    /\ present s' (params_id req) = false
                    /\ serve m DELETE req s
                       = mkOutcome (Normal tt) (answered 204 NoBody) s'
                           [(DeleteProduct (params_id req), Normal (JsBool true))]
    else exists s', deleteProduct m (params_id req) s = (Normal (JsBool false), s')
                    /\ serve m DELETE req s
                       = mkOutcome (Normal tt)
                           (answered 404 (JsonBody (errorBody "Product not found"))) s'
                           [(DeleteProduct (params_id req), Normal (JsBool false))]).
  { intros s. destruct (present s (params_id req)) eqn:P.
    - destruct (delete_present s _ P) as (s' & H & P'). exists s'.
      repeat split; trivial.
      rewrite serve_reached by discriminate. simpl. rewrite H. reflexivity.
    - destruct (delete_absent s _ P) as (s' & H). exists s'. split; trivial.
      rewrite serve_reached by discriminate. simpl. rewrite H. reflexivity. }
  split; [|split].
  - intros P. pose proof (once st) as H1. rewrite P in H1.
    destruct H1 as (s1 & _ & P1 & ->). simpl. split; [reflexivity|].
    pose proof (once s1) as H2. rewrite P1 in H2.
    destruct H2 as (s2 & _ & ->). reflexivity.
  - pose proof (once st) as H. destruct (present st (params_id req));
      [destruct H as (s' & -> & _ & ->)|destruct H as (s' & -> & ->)]; simpl;
      split; trivial; discriminate.
  - pose proof (once st) as H. destruct (present st (params_id req));
      [destruct H as (s' & -> & _ & ->)|destruct H as (s' & -> & ->)]; simpl;
      split; trivial; discriminate.
Qed.

End DeleteContract.

(** Without any contract: when deleteProduct returns, DELETE answers 204
    for a truthy value and 404 for a falsy one. *)
Lemma delete_answers_by_truthiness {Store} (m : ProductModel Store) req st v st' :
  deleteProduct m (params_id req) st = (Normal v, st') ->
  sent (res (serve m DELETE req st))
  = [if ToBoolean v then mkResponse 204 NoBody else notFound].
Proof.
  intros H. rewrite serve_reached by discriminate. simpl. rewrite H.
  destruct (ToBoolean v); reflexivity.
Qed.

(** The in-memory collaborator keeps the contract of deleteProduct. *)
Lemma memory_delete_present (st : Memory.Store) (id : JsString) :
  Memory.present st id = true ->
  exists st', deleteProduct Memory.model id st = (Normal (JsBool true), st')
              /\ Memory.present st' id = false.
Proof.
  intros P. simpl. rewrite P. eexists. split; [reflexivity|].
  unfold Memory.present. simpl. rewrite lookup_delete_eq.
  apply bool_decide_eq_false. intros [x Hx]. discriminate.
Qed.

Lemma memory_delete_absent (st : Memory.Store) (id : JsString) :
  Memory.present st id = false ->
  exists st', deleteProduct Memory.model id st = (Normal (JsBool false), st').
Proof. intros P. simpl. rewrite P. eexists. reflexivity. Qed.

Lemma delete_twice_204_then_404_witness :
  let req := mkRequest (lit "1") JsUndefined in
  let st := Memory.mkStore 2 (<[lit "1" := widget]> ∅) in
  sent (res (serve Memory.model DELETE req st)) = [mkResponse 204 NoBody]
  /\ sent (res (serve Memory.model DELETE req (store (serve Memory.model DELETE req st))))
     = [notFound].
Proof.
  exact (proj1 (delete_twice_204_then_404 Memory.model Memory.present
                  memory_delete_present memory_delete_absent
                  (mkRequest (lit "1") JsUndefined)
                  (Memory.mkStore 2 (<[lit "1" := widget]> ∅)))
               eq_refl).
Defined.

(** C6. On PUT /products/:id, when the body passes validation (the checks
    collect no error) and updateProduct returns: the answer is 404 if what
    it returned is falsy (the product is absent), and otherwise has what it
    returned as its body. When the checks collect an error the answer is the
    400 that lists them, and updateProduct is not called, whatever the
    store holds: validation comes first. *)
Theorem put_validates_then_updates {Store} (m : ProductModel Store) req st :
  (collectErrors (body req) = Normal [] ->
   forall v st',
     updateProduct m (params_id req) (body req) st = (Normal v, st') ->
     (ToBoolean v = false -> sent (res (serve m PUT req st)) = [notFound])
     /\ (ToBoolean v = true ->
         sent (res (serve m PUT req st)) = [mkResponse 200 (JsonBody v)]))
  /\ (forall e es,
        collectErrors (body req) = Normal (e :: es) ->
        sent (res (serve m PUT req st)) = [invalid (e :: es)]
        /\ calls (serve m PUT req st) = []).
Proof.
  split.
  - intros Hv v st' H. rewrite serve_reached by (intros _; exact Hv).
    simpl. rewrite H. split; intros ->; reflexivity.
  - intros e es H. rewrite (serve_rejected m PUT req st e es eq_refl H).
    split; reflexivity.
Qed.

Lemma put_validates_then_updates_witness :
  let absent := mkRequest (lit "7") widget in
  let held := mkRequest (lit "1") widget in
  let bad := mkRequest (lit "7") (product JsUndefined (JsNum (Num.ofZ 10)) (str "Tools")) in
  let st := Memory.mkStore 2 (<[lit "1" := widget]> ∅) in
  sent (res (serve Memory.model PUT absent st)) = [notFound]
  /\ sent (res (serve Memory.model PUT held st))
     = [mkResponse 200 (JsonBody (Memory.record (lit "1") widget))]
  /\ sent (res (serve Memory.model PUT bad st)) = [invalid [nameRequired]]
  /\ calls (serve Memory.model PUT bad st) = [].
Proof.
  cbv zeta. split; [|split].
  - exact (proj1 (proj1 (put_validates_then_updates Memory.model
                           (mkRequest (lit "7") widget)
                           (Memory.mkStore 2 (<[lit "1" := widget]> ∅)))
                    eq_refl JsNull _ eq_refl) eq_refl).
  - exact (proj2 (proj1 (put_validates_then_updates Memory.model
                           (mkRequest (lit "1") widget)
                           (Memory.mkStore 2 (<[lit "1" := widget]> ∅)))
                    eq_refl (Memory.record (lit "1") widget) _ eq_refl) eq_refl).
  - exact (proj2 (put_validates_then_updates Memory.model
                    (mkRequest (lit "7")
                       (product JsUndefined (JsNum (Num.ofZ 10)) (str "Tools")))
                    (Memory.mkStore 2 (<[lit "1" := widget]> ∅)))
             nameRequired [] eq_refl).
Defined.

(** Every request either gets exactly one answer, of a success status or
    of one of the three error kinds, or stops in the middleware on a check
    that threw, with nothing sent and no call made. *)
Lemma serve_outcomes {Store} (m : ProductModel Store) op req st :
  (completion (serve m op req st) = Normal tt
   /\ exists r, sent (res (serve m op req st)) = [r]
      /\ (In (status r) [200; 201; 204]
          \/ (exists e es, r = invalid (e :: es))
          \/ r = notFound
          \/ r = failure op))
  \/ (validated op = true
      /\ exists e, collectErrors (body req) = Throw e
         /\ serve m op req st = mkOutcome (Throw e) freshRes st []).
Proof.
  assert (reached :
    (validated op = true -> collectErrors (body req) = Normal []) ->
    completion (serve m op req st) = Normal tt
    /\ exists r, sent (res (serve m op req st)) = [r]
       /\ (In (status r) [200; 201; 204]
           \/ (exists e es, r = invalid (e :: es))
           \/ r = notFound
           \/ r = failure op)).
  { intros Hv. rewrite (serve_reached m op req st Hv).
    destruct (perform m (callOf op req) st) as [[v|e] st']; simpl;
      (split; [reflexivity|]).
    - destruct op; try destruct (ToBoolean v); eexists; (split; [reflexivity|]);
        simpl; tauto.
    - eexists. split; [reflexivity|]. do 3 right. reflexivity. }
  destruct (validated op) eqn:V; [|left; apply reached; discriminate].
  destruct (collectErrors (body req)) as [[|x xs]|x] eqn:C.
  - left. apply reached. reflexivity.
  - left. rewrite (serve_rejected m op req st x xs V C). simpl.
    split; [reflexivity|]. eexists. split; [reflexivity|].
    right. left. eauto.
  - right. split; [reflexivity|]. exists x. split; [reflexivity|].
    apply serve_thrown; assumption.
Qed.

(** C7, at POST /products with the body
    [{ name: 5, price: 10, category: "Tools" }]: [name.trim] is not a
    function, the TypeError leaves the middleware, which has no try around
    its checks, and the chain ends with nothing sent: none of the three
    kinds of answer is produced. *)
Theorem non_string_name_escapes {Store} (m : ProductModel Store) id st :
  serve m POST
    (mkRequest id (product (JsNum (Num.ofZ 5)) (JsNum (Num.ofZ 10)) (str "Tools"))) st
  = mkOutcome (Throw (TypeError "name.trim is not a function")) freshRes st [].
Proof. apply serve_thrown; reflexivity. Qed.

(** C8. On POST and PUT, when the checks collect an error the answer is
    the 400 that lists them, no call is made on the collaborator and the
    store is the one the request found; and whenever the answer of these
    operations has status 400, no call was made and the store is
    unchanged. *)
Theorem rejected_without_call {Store} (m : ProductModel Store) op req st :
  validated op = true ->
  (forall e es,
     collectErrors (body req) = Normal (e :: es) ->
     sent (res (serve m op req st)) = [invalid (e :: es)]
     /\ calls (serve m op req st) = []
     /\ store (serve m op req st) = st)
  /\ (forall r,
        In r (sent (res (serve m op req st))) -> status r = 400 ->
        calls (serve m op req st) = [] /\ store (serve m op req st) = st).
Proof.
  intros V. split.
  - intros e es H. rewrite (serve_rejected m op req st e es V H).
    repeat split; reflexivity.
  - destruct (collectErrors (body req)) as [[|x xs]|x] eqn:C.
    + rewrite serve_reached by (intros _; exact C).
      destruct op; try discriminate V;
        destruct (perform m _ st) as [[v|e] st']; simpl;
        try destruct (ToBoolean v); intros r [<-|[]]; discriminate.
    + rewrite (serve_rejected m op req st x xs V C). split; reflexivity.
    + rewrite (serve_thrown m op req st x V C). split; reflexivity.
Qed.

Lemma rejected_without_call_witness :
  let req := mkRequest [] (product (str "Widget") (JsNum (Num.ofZ (-3))) (str "")) in
  sent (res (serve Memory.model POST req Memory.empty))
  = [invalid [pricePositive; categoryRequired]]
  /\ calls (serve Memory.model POST req Memory.empty) = []
  /\ store (serve Memory.model POST req Memory.empty) = Memory.empty.
Proof.
  exact (proj1 (rejected_without_call Memory.model POST
                  (mkRequest [] (product (str "Widget") (JsNum (Num.ofZ (-3))) (str "")))
                  Memory.empty eq_refl)
               pricePositive [categoryRequired] eq_refl).
Defined.

(** A name or a category of white space only is listed as required
    whenever the three checks complete. *)
Lemma white_space_only_is_required (b : JsValue) (s : JsString) :
  Rules.checkable b = true ->
  Rules.whiteSpaceOnly s = true ->
  (getField "name" b = JsStr s ->
   exists errors, collectErrors b = Normal errors /\ In nameRequired errors)
  /\ (getField "category" b = JsStr s ->
      exists errors, collectErrors b = Normal errors /\ In categoryRequired errors).
Proof.
  intros Hb Hs. rewrite (collectErrors_checkable b Hb). unfold Rules.violations.
  split; intros ->; eexists; (split; [reflexivity|]);
    unfold Rules.blankField at 1 2; rewrite Hs, orb_true_r; unfold listing.
  - left. reflexivity.
  - rewrite !in_app_iff. do 2 right. left. reflexivity.
Qed.

(** C9, at POST /products with the body
    [{ name: "   ", price: 10, category: 5 }]: the name is white space
    only, but [category.trim] is not a function; the TypeError leaves the
    middleware before anything is sent, so no 400 lists the name. *)
Theorem blank_name_beside_number_category_escapes
    {Store} (m : ProductModel Store) id st :
  Rules.whiteSpaceOnly (lit "   ") = true
  /\ serve m POST
       (mkRequest id (product (str "   ") (JsNum (Num.ofZ 10)) (JsNum (Num.ofZ 5)))) st
     = mkOutcome (Throw (TypeError "category.trim is not a function")) freshRes st [].
Proof. split; [reflexivity|]. apply serve_thrown; reflexivity. Qed.

(** C10. The body [{ name: "Widget", price: "10", category: "Tools" }],
    whose price is a string, passes validation: POST calls createProduct
    and PUT calls updateProduct with that very body. In general the price
    check accepts a value exactly when it is truthy and its numeric
    coercion is a number greater than zero. *)
Theorem numeric_string_price_passes :
  (exists b,
     getField "price" b = str "10"
     /\ collectErrors b = Normal []
     /\ forall Store (m : ProductModel Store) id st,
          calls (serve m POST (mkRequest id b) st)
          = [(CreateProduct b, fst (createProduct m b st))]
          /\ calls (serve m PUT (mkRequest id b) st)
             = [(UpdateProduct id b, fst (updateProduct m id b st))])
  /\ (forall price,
        notPositive price = Normal false
        <-> ToBoolean price = true
            /\ exists n, ToNumber price = Normal n /\ Num.positive n = true).
Proof.
  split.
  - exists (product (str "Widget") (str "10") (str "Tools")).
    split; [reflexivity|]. split; [reflexivity|].
    intros Store m id st. split.
    + rewrite serve_reached by reflexivity. simpl.
      destruct (createProduct m _ st); reflexivity.
    + rewrite serve_reached by reflexivity. simpl.
      destruct (updateProduct m id _ st); reflexivity.
  - intros price. unfold notPositive, isNaN, lessEq.
    destruct (ToBoolean price); simpl.
    + destruct (ToNumber price) as [n|e]; simpl.
      * assert (E : (if Num.isNaN n then Normal true
                     else Normal (Num.lessEq n Num.zero))
                    = Normal (negb (Num.positive n))).
        { rewrite <- sign_test. destruct (Num.isNaN n); reflexivity. }
        rewrite E. destruct (Num.positive n) eqn:P; simpl.
        -- split; eauto.
        -- split; [discriminate|]. intros (_ & n' & [= <-] & ?). congruence.
      * split; [discriminate|]. intros (_ & n' & ? & _). discriminate.
    + split; [discriminate|]. intros [? _]. discriminate.
Qed.

Lemma numeric_string_price_passes_witness :
  notPositive (str "10") = Normal false.
Proof.
  apply (proj2 numeric_string_price_passes (str "10")).
  split; [reflexivity|]. exists (Num.ofZ 10). split; reflexivity.
Defined.

(** ** Further properties of the routes *)

(** A falsy value coerces to a number that is not positive. *)
Lemma falsy_coerces_not_positive (v : JsValue) :
  ToBoolean v = false ->
  exists n, ToNumber v = Normal n /\ Num.positive n = false.
Proof.
  destruct v as [| |b|x|s|l|l]; simpl; try discriminate; eauto.
  - intros ->. eauto.
  - destruct x as [[]|[]| |[] ? ?]; simpl; try discriminate; eauto.
  - destruct s; [|discriminate]. intros _. eexists. split; reflexivity.
Qed.

(** The test on a text field throws on every truthy value that is not a
    string. *)
Lemma blank_throws (field : string) (v : JsValue) :
  Rules.textual v = false ->
  blank field v = Throw (TypeError (field +:+ ".trim is not a function")).
Proof.
  unfold blank, Rules.textual.
  destruct v as [| |b|x|s|l|l]; try discriminate; try reflexivity.
  - destruct b; [reflexivity|discriminate].
  - destruct (ToBoolean (JsNum x)); [reflexivity|discriminate].
Qed.

(** The test on the price throws on the values that do not convert. *)
Lemma notPositive_throws (price : JsValue) :
  stringifies price = false -> notPositive price = Throw cannotConvert.
Proof.
  intros H. destruct price; try discriminate H;
    unfold notPositive, isNaN, ToNumber; rewrite H; reflexivity.
Qed.

(** The numeric coercion completes on the values that convert, and throws
    on the others. *)
Lemma coercion_completes (v : JsValue) :
  stringifies v = true -> exists n, ToNumber v = Normal n.
Proof.
  intros H. destruct v; try (eexists; reflexivity);
    unfold ToNumber; rewrite H; eauto.
Qed.

Lemma coercion_throws (v : JsValue) :
  stringifies v = false -> ToNumber v = Throw cannotConvert.
Proof.
  intros H. destruct v; try discriminate H; unfold ToNumber; rewrite H; reflexivity.
Qed.

(** The three fields of a body that can be destructured. *)
Lemma destructure_fields (b : JsValue) :
  nullish b = false ->
  destructure b
  = Normal (getField "name" b, getField "price" b, getField "category" b).
Proof. destruct b; try discriminate; reflexivity. Qed.

Lemma checkable_fields (b : JsValue) :
  nullish b = false ->
  Rules.checkable b
  = Rules.textual (getField "name" b)
    && stringifies (getField "price" b)
    && Rules.textual (getField "category" b).
Proof. destruct b; try discriminate; reflexivity. Qed.

(** The whole of a request, by the way the checks and the call complete. *)
Lemma serve_cases {Store} (m : ProductModel Store) op req st :
  (exists o st',
     perform m (callOf op req) st = (o, st')
     /\ (validated op = true -> collectErrors (body req) = Normal [])
     /\ calls (serve m op req st) = [(callOf op req, o)]
     /\ store (serve m op req st) = st'
     /\ completion (serve m op req st) = Normal tt
     /\ exists r, res (serve m op req st) = answered (status r) (payload r)
        /\ match o with
           | Throw _ => r = failure op
           | Normal v =>
               if checksResult op && negb (ToBoolean v) then r = notFound
               else r = mkResponse
                          (match op with POST => 201 | DELETE => 204 | _ => 200 end)
                          (match op with DELETE => NoBody | _ => JsonBody v end)
           end)
  \/ (exists e es,
        validated op = true
        /\ collectErrors (body req) = Normal (e :: es)
        /\ serve m op req st
           = mkOutcome (Normal tt) (answered 400 (JsonBody (errorsBody (e :: es)))) st [])
  \/ (exists e,
        validated op = true
        /\ collectErrors (body req) = Throw e
        /\ serve m op req st = mkOutcome (Throw e) freshRes st []).
Proof.
  assert (reached :
    (validated op = true -> collectErrors (body req) = Normal []) ->
    exists o st',
      perform m (callOf op req) st = (o, st')
      /\ (validated op = true -> collectErrors (body req) = Normal [])
      /\ calls (serve m op req st) = [(callOf op req, o)]
      /\ store (serve m op req st) = st'
      /\ completion (serve m op req st) = Normal tt
      /\ exists r, res (serve m op req st) = answered (status r) (payload r)
         /\ match o with
            | Throw _ => r = failure op
            | Normal v =>
                if checksResult op && negb (ToBoolean v) then r = notFound
                else r = mkResponse
                           (match op with POST => 201 | DELETE => 204 | _ => 200 end)
                           (match op with DELETE => NoBody | _ => JsonBody v end)
            end).
  { intros Hv. rewrite (serve_reached m op req st Hv).
    destruct (perform m (callOf op req) st) as [o st'].
    exists o, st'. do 5 (split; [reflexivity || exact Hv|]).
    destruct o as [v|e]; [|exists (failure op); split; reflexivity].
    destruct op; simpl; try destruct (ToBoolean v); simpl;
      eexists; (split; [|reflexivity]); reflexivity. }
  destruct (validated op) eqn:V; [|left; apply reached; discriminate].
  destruct (collectErrors (body req)) as [[|x xs]|x] eqn:C.
  - left. apply reached. reflexivity.
  - right. left. exists x, xs. repeat split. apply serve_rejected; assumption.
  - right. right. exists x. repeat split. apply serve_thrown; assumption.
Qed.

(** X1. When getAllProducts returns a value of plain data other than
    undefined (a list, empty or not, but also null, false, 0 or the empty
    string), GET /products answers 200 with that value as its body: the
    list route tests nothing of what is returned and has no 404. One call
    is made and the store is the one it left. *)
Theorem list_all_answers_200 {Store} (m : ProductModel Store) req st v st' :
  getAllProducts m st = (Normal v, st') ->
  v <> JsUndefined ->
  serve m GET_all req st
  = mkOutcome (Normal tt) (answered 200 (JsonBody v)) st'
      [(GetAllProducts, Normal v)].
Proof.
  intros H _. rewrite serve_reached by discriminate. simpl. rewrite H. reflexivity.
Qed.

Lemma list_all_answers_200_witness :
  serve Memory.model GET_all (mkRequest [] JsUndefined) Memory.empty
  = mkOutcome (Normal tt) (answered 200 (JsonBody (JsArray []))) Memory.empty
      [(GetAllProducts, Normal (JsArray []))].
Proof.
  apply (list_all_answers_200 Memory.model (mkRequest [] JsUndefined)
           Memory.empty (JsArray []) Memory.empty).
  - reflexivity.
  - discriminate.
Defined.

(** X2. Whenever the three checks complete, on any body at all, the
    errors they collect are a subsequence of the three messages in the
    order name, price, category: at most three, none twice, never out of
    order. *)
Theorem errors_in_fixed_order (b : JsValue) (errors : list JsString) :
  collectErrors b = Normal errors ->
  sublist errors threeMessages.
Proof.
  unfold collectErrors, threeMessages.
  destruct (destructure b) as [[[name price] category]|e]; [|discriminate].
  simpl.
  destruct (blank "name" name) as [[]|e]; [| |discriminate];
    (destruct (notPositive price) as [[]|e]; [| |discriminate]);
    (destruct (blank "category" category) as [[]|e]; [| |discriminate]);
    simpl; intros [= <-];
    repeat first [apply sublist_nil | apply sublist_skip | apply sublist_cons].
Qed.

Lemma errors_in_fixed_order_witness :
  sublist [nameRequired; categoryRequired] threeMessages.
Proof.
  exact (errors_in_fixed_order
           (product (str "") (JsNum (Num.ofZ 3)) JsUndefined)
           [nameRequired; categoryRequired] eq_refl).
Defined.

(** X3. Validation reads the name, the price and the category of the body
    and nothing else: two bodies that can be destructured and agree on
    these three fields collect the same errors, or throw the same error,
    whatever else they hold. *)
Theorem validation_reads_three_fields (b1 b2 : JsValue) :
  nullish b1 = false -> nullish b2 = false ->
  getField "name" b1 = getField "name" b2 ->
  getField "price" b1 = getField "price" b2 ->
  getField "category" b1 = getField "category" b2 ->
  collectErrors b1 = collectErrors b2.
Proof.
  intros N1 N2 Hn Hp Hc. unfold collectErrors.
  rewrite (destructure_fields b1 N1), (destructure_fields b2 N2), Hn, Hp, Hc.
  reflexivity.
Qed.

Lemma validation_reads_three_fields_witness :
  collectErrors
    (JsObject [(lit "id", str "9"); (lit "category", str "Tools");
               (lit "name", str "Widget"); (lit "price", JsNum (Num.ofZ 10));
               (lit "stock", JsNull)])
  = collectErrors widget.
Proof.
  exact (validation_reads_three_fields
           (JsObject [(lit "id", str "9"); (lit "category", str "Tools");
                      (lit "name", str "Widget"); (lit "price", JsNum (Num.ofZ 10));
                      (lit "stock", JsNull)])
           widget eq_refl eq_refl eq_refl eq_refl eq_refl).
Defined.

(** X4. The price check is the sign of the numeric coercion: it throws
    exactly when the coercion throws, and otherwise reports a violation
    exactly when the coerced number is not greater than zero. The first
    test of the check, on the truthiness of the price, never changes the
    result. *)
Theorem price_check_is_sign_of_coercion (price : JsValue) :
  notPositive price
  = (n <- ToNumber price ;; Normal (negb (Num.positive n)))%C.
Proof.
  unfold notPositive, isNaN, lessEq.
  destruct (ToBoolean price) eqn:T; simpl.
  - destruct (ToNumber price) as [n|e]; simpl; [|reflexivity].
    rewrite <- sign_test. destruct (Num.isNaN n); reflexivity.
  - destruct (falsy_coerces_not_positive price T) as (n & -> & P). simpl.
    rewrite P. reflexivity.
Qed.

(** X5. The checks of the middleware complete exactly on the bodies that
    are present, whose name and category are strings or falsy, and whose
    price converts to a number; on every other body they throw, and what
    they throw is a TypeError. *)
Theorem checks_complete_exactly_when_checkable (b : JsValue) :
  match collectErrors b with
  | Normal errors => Rules.checkable b = true /\ errors = Rules.violations b
  | Throw e => Rules.checkable b = false /\ exists message, e = TypeError message
  end.
Proof.
  destruct (Rules.checkable b) eqn:K.
  - rewrite (collectErrors_checkable b K). split; reflexivity.
  - destruct (nullish b) eqn:Nb.
    + destruct b; try discriminate Nb; simpl; eauto.
    + unfold collectErrors. rewrite (destructure_fields b Nb).
      rewrite (checkable_fields b Nb) in K. simpl bindC.
      destruct (Rules.textual (getField "name" b)) eqn:Tn;
        [|rewrite (blank_throws _ _ Tn); simpl; eauto].
      rewrite (blank_textual _ _ Tn).
      destruct (stringifies (getField "price" b)) eqn:Sp;
        [|rewrite (notPositive_throws _ Sp); simpl; unfold cannotConvert; eauto].
      rewrite (notPositive_coerced _ Sp).
      destruct (Rules.textual (getField "category" b)) eqn:Tc; [discriminate K|].
      rewrite (blank_throws _ _ Tc). simpl. eauto.
Qed.

(** X6. The bodies that pass validation are exactly those whose name and
    category are strings holding a character other than white space and
    whose price coerces to a number greater than zero. *)
Theorem accepted_bodies (b : JsValue) :
  collectErrors b = Normal []
  <-> exists name category x,
        getField "name" b = JsStr name
        /\ Rules.whiteSpaceOnly name = false
        /\ getField "category" b = JsStr category
        /\ Rules.whiteSpaceOnly category = false
        /\ ToNumber (getField "price" b) = Normal x
        /\ Num.positive x = true.
Proof.
  assert (text : forall v,
            Rules.textual v = true ->
            (Rules.blankField v = false
             <-> exists s, v = JsStr s /\ Rules.whiteSpaceOnly s = false)).
  { intros v Tv. unfold Rules.blankField. split.
    - destruct v as [| |[]|x|s|l|l]; try discriminate.
      + unfold Rules.textual in Tv. rewrite Tv. discriminate.
      + destruct s as [|c s]; [discriminate|]. intros H.
        exists (c :: s). split; [reflexivity|exact H].
    - intros (s & -> & Hs). rewrite Hs. destruct s; [discriminate|reflexivity]. }
  assert (nums : forall v,
            stringifies v = true ->
            (Rules.badPrice v = false
             <-> exists x, ToNumber v = Normal x /\ Num.positive x = true)).
  { intros v Sv. unfold Rules.badPrice.
    destruct (ToBoolean v) eqn:T; simpl.
    - destruct (ToNumber v) as [x|e] eqn:E.
      + destruct (Num.positive x) eqn:P; simpl; split; eauto; try discriminate.
        intros (y & [= <-] & ?). congruence.
      + apply coercion_completes in Sv as (y & Hy). congruence.
    - split; [discriminate|]. intros (x & Hx & Px).
      destruct (falsy_coerces_not_positive v T) as (y & Hy & Py). congruence. }
  assert (list3 : forall p q r : bool, listing p q r = [] <-> p = false /\ q = false /\ r = false).
  { intros [] [] []; unfold listing; simpl; split; try discriminate;
      try tauto; intros (? & ? & ?); discriminate. }
  pose proof (checks_shape := collectErrors_checkable b).
  split.
  - intros H.
    destruct (Rules.checkable b) eqn:K.
    + rewrite (checks_shape eq_refl) in H. injection H as H.
      apply list3 in H as (Hn & Hp & Hc).
      assert (Nb : nullish b = false) by (destruct b; try discriminate K; reflexivity).
      rewrite (checkable_fields b Nb) in K.
      apply andb_prop in K as [K Tc]. apply andb_prop in K as [Tn Sp].
      apply (text _ Tn) in Hn as (name & En & Wn).
      apply (text _ Tc) in Hc as (category & Ec & Wc).
      apply (nums _ Sp) in Hp as (x & Ex & Px).
      exists name, category, x. auto 10.
    + unfold collectErrors in H. destruct (nullish b) eqn:Nb.
      * destruct b; discriminate.
      * rewrite (destructure_fields b Nb) in H.
        rewrite (checkable_fields b Nb) in K. simpl bindC in H.
        destruct (Rules.textual (getField "name" b)) eqn:Tn;
          [|rewrite (blank_throws _ _ Tn) in H; discriminate].
        rewrite (blank_textual _ _ Tn) in H.
        destruct (stringifies (getField "price" b)) eqn:Sp;
          [|rewrite (notPositive_throws _ Sp) in H; discriminate].
        rewrite (notPositive_coerced _ Sp) in H.
        destruct (Rules.textual (getField "category" b)) eqn:Tc; [discriminate K|].
        rewrite (blank_throws _ _ Tc) in H. discriminate.
  - intros (name & category & x & En & Wn & Ec & Wc & Ex & Px).
    assert (Nb : nullish b = false) by (destruct b; try discriminate En; reflexivity).
    assert (Sp : stringifies (getField "price" b) = true).
    { destruct (stringifies (getField "price" b)) eqn:S; [reflexivity|].
      apply coercion_throws in S. congruence. }
    assert (K : Rules.checkable b = true)
      by (rewrite (checkable_fields b Nb), En, Ec, Sp; reflexivity).
    rewrite (checks_shape K). f_equal. unfold Rules.violations. apply list3.
    repeat split.
    + rewrite En. apply (text (JsStr name) eq_refl). eauto.
    + apply (nums _ Sp). eauto.
    + rewrite Ec. apply (text (JsStr category) eq_refl). eauto.
Qed.

(** X7. A request makes at most one call on the collaborator, the one of
    its route with the id and the body of the request as they came, and
    never repeats it, also when it threw. The store after the request is the
    one that call left, or the one the request found when no call was
    made, which only happens on the validated routes. *)
Theorem at_most_one_call {Store} (m : ProductModel Store) op req st :
  (calls (serve m op req st) = []
   /\ store (serve m op req st) = st
   /\ validated op = true)
  \/ (calls (serve m op req st)
      = [(callOf op req, fst (perform m (callOf op req) st))]
      /\ store (serve m op req st) = snd (perform m (callOf op req) st)).
Proof.
  destruct (serve_cases m op req st)
    as [(o & st' & P & _ & Hc & Hs & _)|[(e & es & V & _ & ->)|(e & V & _ & ->)]].
  - right. rewrite P. split; assumption.
  - left. repeat split. exact V.
  - left. repeat split. exact V.
Qed.

(** X8. A request is never answered twice: at most one response is sent,
    exactly one when the chain of handlers completes normally and none
    when it throws; and the status code left on the response object is the
    one that was sent. *)
Theorem at_most_one_answer {Store} (m : ProductModel Store) op req st :
  (completion (serve m op req st) = Normal tt
   /\ exists r, sent (res (serve m op req st)) = [r]
                /\ statusCode (res (serve m op req st)) = status r)
  \/ ((exists e, completion (serve m op req st) = Throw e)
      /\ sent (res (serve m op req st)) = []).
Proof.
  destruct (serve_cases m op req st)
    as [(o & st' & _ & _ & _ & _ & Hk & r & -> & _)
       |[(e & es & _ & _ & ->)|(e & _ & _ & ->)]].
  - left. split; [exact Hk|]. eexists. split; reflexivity.
  - left. split; [reflexivity|]. eexists. split; reflexivity.
  - right. split; [exists e|]; reflexivity.
Qed.

(** X9. The status codes of each route: GET /products answers 200 or 500;
    GET /products/:id 200, 404 or 500; POST 201, 400 or 500; PUT 200, 400,
    404 or 500; DELETE 204, 404 or 500. No route answers with another
    code, and each of these codes is answered for some collaborator and
    request. *)
Theorem statuses_by_route (op : Route) :
  (forall Store (m : ProductModel Store) req st r,
     In r (sent (res (serve m op req st))) -> In (status r) (statusesOf op))
  /\ (forall code,
        In code (statusesOf op) ->
        exists Store (m : ProductModel Store) req st,
          map status (sent (res (serve m op req st))) = [code]).
Proof.
  split.
  - intros Store m req st r0.
    destruct (serve_cases m op req st)
      as [(o & st' & _ & _ & _ & _ & _ & r & -> & Ho)
         |[(e & es & V & _ & ->)|(e & _ & _ & ->)]]; simpl.
    + intros [<-|[]]. simpl.
      destruct o as [v|e].
      * destruct op; simpl in Ho; try destruct (ToBoolean v); simpl in Ho;
          subst r; simpl; tauto.
      * subst r. destruct op; simpl; tauto.
    + intros [<-|[]]. destruct op; try discriminate V; simpl; tauto.
    + intros [].
  - pose (held := Memory.mkStore 2 (<[lit "1" := widget]> ∅)).
    pose (bad := product JsNull JsNull JsNull).
    intros code H.
    destruct op; simpl in H;
      repeat match goal with H : _ \/ _ |- _ => destruct H as [<-|H] end;
      try contradiction.
    + exists Memory.Store, Memory.model, (mkRequest [] JsUndefined), held. reflexivity.
    + exists unit, unreachable, (mkRequest [] JsUndefined), tt. reflexivity.
    + exists Memory.Store, Memory.model, (mkRequest (lit "1") JsUndefined), held.
      reflexivity.
    + exists Memory.Store, Memory.model, (mkRequest (lit "7") JsUndefined), held.
      reflexivity.
    + exists unit, unreachable, (mkRequest (lit "1") JsUndefined), tt. reflexivity.
    + exists Memory.Store, Memory.model, (mkRequest [] widget), held. reflexivity.
    + exists Memory.Store, Memory.model, (mkRequest [] bad), held. reflexivity.
    + exists unit, unreachable, (mkRequest [] widget), tt. reflexivity.
    + exists Memory.Store, Memory.model, (mkRequest (lit "1") widget), held. reflexivity.
    + exists Memory.Store, Memory.model, (mkRequest (lit "1") bad), held. reflexivity.
    + exists Memory.Store, Memory.model, (mkRequest (lit "7") widget), held. reflexivity.
    + exists unit, unreachable, (mkRequest (lit "1") widget), tt. reflexivity.
    + exists Memory.Store, Memory.model, (mkRequest (lit "1") JsUndefined), held.
      reflexivity.
    + exists Memory.Store, Memory.model, (mkRequest (lit "7") JsUndefined), held.
      reflexivity.
    + exists unit, unreachable, (mkRequest (lit "1") JsUndefined), tt. reflexivity.
Qed.

Lemma statuses_by_route_witness :
  In (status notFound) (statusesOf DELETE).
Proof.
  apply (proj1 (statuses_by_route DELETE) Memory.Store Memory.model
           (mkRequest (lit "7") JsUndefined) Memory.empty notFound).
  left. reflexivity.
Defined.

(** X10. The causes of the error statuses. A response of status 404 is
    sent exactly when the call on the collaborator returned a falsy value
    on a route that looks at the result (get one, update, delete), and one
    of status 400 exactly when no call was made. A response of status 500
    is sent only after the call of the route was made, and always when that
    call threw. *)
Theorem error_statuses_and_their_causes
    {Store} (m : ProductModel Store) op req st r :
  In r (sent (res (serve m op req st))) ->
  (status r = 404
   <-> exists v, calls (serve m op req st) = [(callOf op req, Normal v)]
                 /\ ToBoolean v = false /\ checksResult op = true)
  /\ (status r = 400 <-> calls (serve m op req st) = [])
  /\ (status r = 500 ->
      calls (serve m op req st)
      = [(callOf op req, fst (perform m (callOf op req) st))])
  /\ ((exists e, calls (serve m op req st) = [(callOf op req, Throw e)]) ->
      status r = 500).
Proof.
  destruct (serve_cases m op req st)
    as [(o & st' & P & _ & Hc & _ & _ & r' & Hr & Ho)
       |[(e & es & V & _ & ->)|(e & _ & _ & ->)]].
  - rewrite Hr, Hc, P. simpl. intros [<-|[]]. simpl.
    destruct o as [v|e].
    + destruct (checksResult op) eqn:K, (ToBoolean v) eqn:T; simpl in Ho;
        subst r'; simpl; repeat split; try discriminate;
        try (intros (? & [= <-] & ? & ?); congruence);
        try (intros (? & [=])); try (destruct op; discriminate);
        eauto.
    + subst r'. repeat split; try discriminate; eauto;
        intros (? & [=] & _).
  - simpl. intros [<-|[]]. simpl. repeat split; try discriminate;
      try (intros (? & [=])); intros (? & [=] & _).
  - intros [].
Qed.

Lemma error_statuses_and_their_causes_witness :
  status notFound = 404
  <-> exists v,
        calls (serve Memory.model GET_one (mkRequest (lit "7") JsUndefined) Memory.empty)
        = [(callOf GET_one (mkRequest (lit "7") JsUndefined), Normal v)]
        /\ ToBoolean v = false /\ checksResult GET_one = true.
Proof.
  apply (error_statuses_and_their_causes Memory.model GET_one
           (mkRequest (lit "7") JsUndefined) Memory.empty notFound).
  left. reflexivity.
Defined.

(** X11. A success is never made up: a response of status 200, 201 or 204
    is sent only after the call on the collaborator returned, with a truthy
    value on the routes that look at it, and it carries what res.json
    writes for that very value, unchanged, except on DELETE, which ends
    the response with no body. *)
Theorem success_carries_what_was_returned
    {Store} (m : ProductModel Store) op req st r :
  In r (sent (res (serve m op req st))) ->
  status r < 300 ->
  exists v, calls (serve m op req st) = [(callOf op req, Normal v)]
            /\ (checksResult op = true -> ToBoolean v = true)
            /\ payload r = match op with DELETE => NoBody | _ => JsonBody v end.
Proof.
  destruct (serve_cases m op req st)
    as [(o & st' & _ & _ & Hc & _ & _ & r' & Hr & Ho)
       |[(e & es & V & _ & ->)|(e & _ & _ & ->)]].
  - rewrite Hr, Hc. simpl. intros [<-|[]]. simpl.
    destruct o as [v|e].
    + destruct (ToBoolean v) eqn:T.
      * rewrite andb_false_r in Ho. subst r'. simpl.
        intros _. exists v. split; [reflexivity|]. split; [intros _; exact T|].
        destruct op; reflexivity.
      * destruct (checksResult op) eqn:K; simpl in Ho; subst r'; simpl.
        -- intros H; discriminate H.
        -- intros _. exists v. split; [reflexivity|]. split; [discriminate|].
           destruct op; try discriminate K; reflexivity.
    + subst r'. simpl. intros H; discriminate H.
  - simpl. intros [<-|[]]. simpl. intros H; discriminate H.
  - intros [].
Qed.

Lemma success_carries_what_was_returned_witness :
  exists v,
    calls (serve Memory.model POST (mkRequest [] widget) Memory.empty)
    = [(CreateProduct widget, Normal v)]
    /\ (checksResult POST = true -> ToBoolean v = true)
    /\ JsonBody (Memory.record (lit "1") widget) = JsonBody v.
Proof.
  apply (success_carries_what_was_returned Memory.model POST
           (mkRequest [] widget) Memory.empty
           (mkResponse 201 (JsonBody (Memory.record (lit "1") widget)))
           (or_introl eq_refl)).
  reflexivity.
Defined.

(** X12. A body that can be destructured and has none of the three fields
    (an empty object, an object with other keys only, an array, a string, a
    number) is answered 400 with the three messages, on POST and on PUT,
    with no call and the store untouched. *)
Theorem missing_fields_are_all_listed
    {Store} (m : ProductModel Store) op req st :
  validated op = true ->
  nullish (body req) = false ->
  getField "name" (body req) = JsUndefined ->
  getField "price" (body req) = JsUndefined ->
  getField "category" (body req) = JsUndefined ->
  serve m op req st
  = mkOutcome (Normal tt) (answered 400 (JsonBody (errorsBody threeMessages))) st [].
Proof.
  intros V Nb Hn Hp Hc. apply serve_rejected; [exact V|].
  unfold collectErrors. rewrite (destructure_fields _ Nb), Hn, Hp, Hc. reflexivity.
Qed.

Lemma missing_fields_are_all_listed_witness :
  serve Memory.model PUT (mkRequest (lit "1") (JsArray [str "Widget"])) Memory.empty
  = mkOutcome (Normal tt) (answered 400 (JsonBody (errorsBody threeMessages)))
      Memory.empty [].
Proof.
  exact (missing_fields_are_all_listed Memory.model PUT
           (mkRequest (lit "1") (JsArray [str "Widget"])) Memory.empty
           eq_refl eq_refl eq_refl eq_refl eq_refl).
Defined.

(** X13. The routes without the middleware never read the body: GET
    /products/:id and DELETE /products/:id depend on the id alone, and GET
    /products on nothing of the request, so a body that validation would
    reject, or throw on, changes nothing there. *)
Theorem unvalidated_routes_ignore_the_body
    {Store} (m : ProductModel Store) op req1 req2 st :
  validated op = false ->
  (op = GET_all \/ params_id req1 = params_id req2) ->
  serve m op req1 st = serve m op req2 st.
Proof.
  intros V H. rewrite !serve_reached by (rewrite V; discriminate).
  destruct op; try discriminate V; simpl; try reflexivity;
    destruct H as [H|H]; try discriminate H; rewrite H; reflexivity.
Qed.

Lemma unvalidated_routes_ignore_the_body_witness :
  serve Memory.model DELETE
    (mkRequest (lit "1") (product (JsNum (Num.ofZ 5)) JsNull JsNull)) Memory.empty
  = serve Memory.model DELETE (mkRequest (lit "1") widget) Memory.empty.
Proof.
  exact (unvalidated_routes_ignore_the_body Memory.model DELETE
           (mkRequest (lit "1") (product (JsNum (Num.ofZ 5)) JsNull JsNull))
           (mkRequest (lit "1") widget) Memory.empty eq_refl (or_intror eq_refl)).
Defined.

(** X14. A request that was rejected by validation, or on which a check
    threw, leaves no trace: every request served after it gets what it
    would have got without it. *)
Theorem stopped_requests_leave_no_trace
    {Store} (m : ProductModel Store) op1 req1 op2 req2 st :
  collectErrors (body req1) <> Normal [] ->
  validated op1 = true ->
  serve m op2 req2 (store (serve m op1 req1 st)) = serve m op2 req2 st.
Proof.
  intros H V. destruct (collectErrors (body req1)) as [[|e es]|e] eqn:C.
  - contradiction.
  - rewrite (serve_rejected m op1 req1 st e es V C). reflexivity.
  - rewrite (serve_thrown m op1 req1 st e V C). reflexivity.
Qed.

Lemma stopped_requests_leave_no_trace_witness :
  serve Memory.model GET_all (mkRequest [] JsUndefined)
    (store (serve Memory.model POST
              (mkRequest [] (product (JsNum (Num.ofZ 5)) JsNull JsNull))
              Memory.empty))
  = serve Memory.model GET_all (mkRequest [] JsUndefined) Memory.empty.
Proof.
  apply (stopped_requests_leave_no_trace Memory.model POST
           (mkRequest [] (product (JsNum (Num.ofZ 5)) JsNull JsNull))
           GET_all (mkRequest [] JsUndefined) Memory.empty).
  - discriminate.
  - reflexivity.
Defined.
